(** * Device resolution from request headers (package [mobile])

    A shallow embedding of [src/mobile.go]: the constants, the three keyword
    tables, the [device] record and [resolveDevice], followed by the
    properties of the classification.

    Go strings are byte sequences, so they are modelled by [string] (a list
    of 8-bit [ascii]); [len] is [String.length] and [strings.Contains] is
    byte-wise substring search.  An [http.Header] is a map from canonical
    header names to the list of values received under that name. *)

From Stdlib Require Import Strings.String Strings.Ascii Bool Arith Lia List.
From stdpp Require Import base option gmap strings.
Import ListNotations.

Local Open Scope string_scope.
Local Open Scope bool_scope.

(** ** Strings *)

Module strings.

(** [strings.HasPrefix(s, prefix)]. *)
Definition HasPrefix (s prefix : string) : bool := String.prefix prefix s.

(** [strings.Contains(s, substr)]: [substr] occurs in [s] at some offset.
    The empty string occurs in every string. *)
Fixpoint Contains (s substr : string) : bool :=
  if HasPrefix s substr then true
  else match s with
       | EmptyString => false
       | String _ rest => Contains rest substr
       end.

(** Bytes below [utf8.RuneSelf] (0x80). *)
Definition isASCIIByte (c : ascii) : bool :=
  match c with Ascii _ _ _ _ _ _ _ b7 => negb b7 end.

Fixpoint isASCII (s : string) : bool :=
  match s with
  | EmptyString => true
  | String c rest => isASCIIByte c && isASCII rest
  end.

Definition isUpper (c : ascii) : bool :=
  (65 <=? nat_of_ascii c)%nat && (nat_of_ascii c <=? 90)%nat.

(** ['A'..'Z'] are moved by ['a' - 'A']; every other byte is kept. *)
Definition lowerByte (c : ascii) : ascii :=
  if isUpper c then ascii_of_nat (nat_of_ascii c + 32) else c.

Fixpoint lowerASCII (s : string) : string :=
  match s with
  | EmptyString => EmptyString
  | String c rest => String (lowerByte c) (lowerASCII rest)
  end.

Section ToLower.

(** [strings.Map(unicode.ToLower, s)], the path [strings.ToLower] takes
    for a string with a byte at or above 0x80.  It depends on the Unicode
    case tables of the Go runtime and is left abstract. *)
Variable mapUnicodeToLower : string -> string.

(** [strings.ToLower(s)]: ASCII-only strings are lowered byte by byte,
    the others go through the Unicode mapping. *)
Definition ToLower (s : string) : string :=
  if isASCII s then lowerASCII s else mapUnicodeToLower s.

End ToLower.

End strings.

(** ** Outcome of a Go computation *)

(** A computation either yields a value or panics at run time (here: a slice
    bound out of range). *)
Inductive result (A : Type) : Type :=
| Ok (a : A)
| Panic.
Arguments Ok {A} a.
Arguments Panic {A}.

(** [s[:n]], which panics when [n > len(s)]. *)
Definition sliceTo (s : string) (n : nat) : result string :=
  if (n <=? String.length s)%nat then Ok (substring 0 n s) else Panic.

(** ** Headers *)

Module http.

Abbreviation Header := (gmap string (list string)).

(** [Header.Get(key)]: the first value stored under [key], or the empty
    string.  Go canonicalises [key] first; every key this package looks up
    is already in canonical form. *)
Definition Get (header : Header) (key : string) : string :=
  match header !! key with
  | Some (v :: _) => v
  | _ => ""
  end.

End http.

(** ** Constants and tables *)

Definition Android : string := "android".
Definition Mobile : string := "mobile".
Definition Ipad : string := "ipad".
Definition Iphone : string := "iphone".
Definition Ipod : string := "ipod".
Definition Ios : string := "ios".
Definition Kindle : string := "Kindle".
Definition Silk : string := "Silk".
Definition Unknown : string := "Unknown".
Definition Wap : string := "wap".
Definition XwapProfile : string := "X-Wap-Profile".
Definition Profile : string := "Profile".

Definition MobileUserAgentPrefixes : list string :=
  [ "w3c "; "w3c-"; "acs-"; "alav"; "alca"; "amoi"; "audi"; "avan"; "benq";
    "bird"; "blac"; "blaz"; "brew"; "cell"; "cldc"; "cmd-"; "dang"; "doco";
    "eric"; "hipt"; "htc_"; "inno"; "ipaq"; "ipod"; "jigs"; "kddi"; "keji";
    "leno"; "lg-c"; "lg-d"; "lg-g"; "lge-"; "lg/u"; "maui"; "maxo"; "midp";
    "mits"; "mmef"; "mobi"; "mot-"; "moto"; "mwbp"; "nec-"; "newt"; "noki";
    "palm"; "pana"; "pant"; "phil"; "play"; "port"; "prox"; "qwap"; "sage";
    "sams"; "sany"; "sch-"; "sec-"; "send"; "seri"; "sgh-"; "shar"; "sie-";
    "siem"; "smal"; "smar"; "sony"; "sph-"; "symb"; "t-mo"; "teli"; "tim-";
    "tosh"; "tsm-"; "upg1"; "upsi"; "vk-v"; "voda"; "wap-"; "wapa"; "wapi";
    "wapp"; "wapr"; "webc"; "winw"; "winw"; "xda "; "xda-" ].

Definition MobileUserAgentKeywords : list string :=
  [ "blackberry"; "webos"; "ipod"; "lge vx"; "midp"; "maemo"; "mmp"; "mobile";
    "netfront"; "hiptop"; "nintendo DS"; "novarra"; "openweb"; "opera mobi";
    "opera mini"; "palm"; "psp"; "phone"; "smartphone"; "symbian"; "up.browser";
    "up.link"; "wap"; "windows ce" ].

Definition TabletUserAgentKeywords : list string :=
  [ "ipad"; "playbook"; "hp-tablet"; "kindle" ].

(** ** The device record *)

Record device : Type := mkDevice {
  normal : bool;
  mobile : bool;
  tablet : bool;
  platform : string
}.

(** The struct literals of [resolveDevice]; a field that a literal leaves out
    has its zero value. *)
Definition tabletDevice (p : string) : device :=
  {| normal := false; mobile := false; tablet := true; platform := p |}.
Definition mobileDevice (p : string) : device :=
  {| normal := false; mobile := true; tablet := false; platform := p |}.
Definition normalDevice (p : string) : device :=
  {| normal := true; mobile := false; tablet := false; platform := p |}.

(** ** resolveDevice *)

(** [s != ""]. *)
Definition nonEmpty (s : string) : bool := negb (String.eqb s "").

(** [for _, k := range table { if strings.Contains(s, k) { return ... } }]:
    whether the loop reaches its [return]. *)
Fixpoint containsAny (s : string) (table : list string) : bool :=
  match table with
  | [] => false
  | k :: rest => if strings.Contains s k then true else containsAny s rest
  end.

(** Lines 80-95, the tablet check.  [Some d] is [return d]; [None] is
    falling out of the block. *)
Definition checkTablet (agent : string) : option device :=
  if nonEmpty agent then
    if strings.Contains agent Android && negb (strings.Contains agent Mobile)
    then Some (tabletDevice Android)
    else if strings.Contains agent Ipad
    then Some (tabletDevice Ipad)
    else if strings.Contains agent Silk && negb (strings.Contains agent Mobile)
    then Some (tabletDevice Kindle)
    else if containsAny agent TabletUserAgentKeywords
    then Some (tabletDevice Unknown)
    else None
  else None.

(** Lines 98-112, the user agent profile detection. *)
Definition checkProfile (header : http.Header) (agent : string) : option device :=
  let xWapProfile := http.Get header XwapProfile in
  let profile := http.Get header Profile in
  if nonEmpty xWapProfile || nonEmpty profile then
    if nonEmpty agent then
      if strings.Contains agent Android
      then Some (mobileDevice Android)
      else if strings.Contains agent Iphone || strings.Contains agent Ipod
              || strings.Contains agent Ipad
      then Some (mobileDevice Ios)
      else Some (mobileDevice Unknown)
    else None
  else None.

(** Lines 115-122, the user agent prefix check; the slice [agent[:4]] is the
    one operation of the function that can panic. *)
Definition checkPrefix (agent : string) : result (option device) :=
  if nonEmpty agent && (4 <=? String.length agent)%nat then
    match sliceTo agent 4 with
    | Panic => Panic
    | Ok prefix =>
        if containsAny prefix MobileUserAgentPrefixes
        then Ok (Some (mobileDevice Unknown))
        else Ok None
    end
  else Ok None.

(** Lines 125-128, the Accept header check. *)
Definition checkAccept (header : http.Header) : option device :=
  let accept := http.Get header "Accept" in
  if nonEmpty accept && strings.Contains accept Wap
  then Some (mobileDevice Unknown)
  else None.

(** Lines 131-144, the mobile check. *)
Definition checkMobile (agent : string) : option device :=
  if nonEmpty agent then
    if strings.Contains agent Android
    then Some (mobileDevice Android)
    else if strings.Contains agent Iphone || strings.Contains agent Ipod
            || strings.Contains agent Ipad
    then Some (mobileDevice Ios)
    else if containsAny agent MobileUserAgentKeywords
    then Some (mobileDevice Unknown)
    else None
  else None.

(** Lines 125-147: what remains once the prefix check has fallen through,
    that is the Accept header check, the mobile check and the final
    [return] of a normal device. *)
Definition afterPrefix (header : http.Header) (agent : string) : device :=
  match checkAccept header with
  | Some d => d
  | None =>
      match checkMobile agent with
      | Some d => d
      | None => normalDevice Unknown
      end
  end.

Section Resolve.

Variable mapUnicodeToLower : string -> string.

(** Line 77: [agent := strings.ToLower(header.Get("User-Agent"))]. *)
Definition userAgent (header : http.Header) : string :=
  strings.ToLower mapUnicodeToLower (http.Get header "User-Agent").

(** Lines 76-148.  The checks run in the order of the source and the first
    one that returns decides the result. *)
Definition resolveDevice (header : http.Header) : result device :=
  let agent := userAgent header in
  match checkTablet agent with
  | Some d => Ok d
  | None =>
      match checkProfile header agent with
      | Some d => Ok d
      | None =>
          match checkPrefix agent with
          | Panic => Panic
          | Ok (Some d) => Ok d
          | Ok None => Ok (afterPrefix header agent)
          end
      end
  end.

End Resolve.

(** ** The middleware and the accessors *)

Definition DefaultKey : string := "github.com/floresj/go-contrib-mobile".

(** Lines 156-173, the methods of [*device] that make it a [Device]. *)
Module Device.

Definition Normal (d : device) : bool := normal d.
Definition Mobile (d : device) : bool := mobile d.
Definition Tablet (d : device) : bool := tablet d.
Definition Platform (d : device) : string := platform d.

End Device.

(** What this package uses of [gin.Context]: the header of the request and
    the key/value store of the context. *)
Module gin.

(** A value stored in a context, of interface type [any].  Within this
    package only [*device] implements [Device]; a string and the nil
    interface stand for the values whose assertion to [Device] fails. *)
Inductive any : Type :=
| AnyDevice (d : device)
| AnyString (s : string)
| AnyNil.

Record Context : Type := mkContext {
  Request_Header : http.Header;
  Keys : gmap string any
}.

(** [c.Set(key, value)] stores the pair in [c.Keys], over any older value of
    the key.  ([Set] is reserved, hence the underscore.) *)
Definition Set_ (c : Context) (key : string) (value : any) : Context :=
  {| Request_Header := Request_Header c; Keys := <[ key := value ]> (Keys c) |}.

(** [c.Get(key)]: the value and whether it exists. *)
Definition Get (c : Context) (key : string) : option any := Keys c !! key.

(** [c.MustGet(key)] returns the value of an existing key and panics
    otherwise. *)
Definition MustGet (c : Context) (key : string) : result any :=
  match Get c key with
  | Some value => Ok value
  | None => Panic
  end.

(** A handler works on the context it is given; it may panic. *)
Definition HandlerFunc : Type := Context -> result Context.

End gin.

(** Line 152: [c.MustGet(DefaultKey).(Device)].  The assertion panics on a
    value that is not a [Device]. *)
Definition GetDevice (c : gin.Context) : result device :=
  match gin.MustGet c DefaultKey with
  | Panic => Panic
  | Ok (gin.AnyDevice d) => Ok d
  | Ok _ => Panic
  end.

Section Middleware.

Variable mapUnicodeToLower : string -> string.

(** Lines 66-72.  [c.Next()] runs the handlers that follow in the chain, on
    the same context; they are the argument [next]. *)
Definition Resolver (next : gin.HandlerFunc) : gin.HandlerFunc :=
  fun c =>
    match resolveDevice mapUnicodeToLower (gin.Request_Header c) with
    | Panic => Panic
    | Ok d => next (gin.Set_ c DefaultKey (gin.AnyDevice d))
    end.

End Middleware.

(** ** Sample requests *)

(** A request that carries only a [User-Agent] header. *)
Definition request (ua : string) : http.Header := {[ "User-Agent" := [ua] ]}.

Definition noHeaders : http.Header := ∅.

Definition silkRequest : http.Header :=
  request "AmazonWebAppPlatform Silk/3.0".

Definition androidTabletRequest : http.Header :=
  request "Mozilla/5.0 (Linux; Android 10)".

Definition ipadRequest : http.Header :=
  request "Mozilla/5.0 (iPad; CPU OS 14_0)".

Definition ipadMobileRequest : http.Header :=
  request "Mozilla/5.0 (iPad; CPU OS 14_0) Mobile/15E148".

Definition profileRequest : http.Header :=
  <[ "X-Wap-Profile" := ["http://wap.example.com/uaprof.xml"] ]>
    (request "Mozilla/5.0 (iPhone; CPU iPhone OS 14_0)").

Definition wapAcceptRequest : http.Header :=
  <[ "Accept" := ["application/vnd.wap.wml"] ]>
    (request "Mozilla/5.0 (X11; Linux x86_64)").

Definition upperWapAcceptRequest : http.Header :=
  <[ "Accept" := ["application/vnd.WAP.wml"] ]>
    (request "Mozilla/5.0 (X11; Linux x86_64)").

Definition shortAgentRequest : http.Header := request "w3c".

(** Two different header maps that agree on the four headers the resolver
    reads. *)
Definition plainRequest : http.Header :=
  <[ "Accept" := ["text/html"] ]> (request "Opera Mini/7.0").

Definition noisyRequest : http.Header :=
  <[ "Accept" := ["text/html"; "application/vnd.wap.wml"] ]>
    (<[ "Cookie" := ["session=1"] ]>
       (<[ "Profile" := [] ]>
          {[ "User-Agent" := ["Opera Mini/7.0"; "mot-v3"] ]})).

Definition iphoneRequest : http.Header :=
  request "Mozilla/5.0 (iPhone; CPU iPhone OS 14_0)".

Definition upperIphoneRequest : http.Header :=
  request "MOZILLA/5.0 (IPHONE; CPU IPHONE OS 14_0)".


(** The same iPhone, announcing its profile under the other header name. *)
Definition profileRequest' : http.Header :=
  <[ "Profile" := ["http://wap.example.com/uaprof.xml"] ]>
    (request "Mozilla/5.0 (iPhone; CPU iPhone OS 14_0)").


(** The context of an iPhone request behind the middleware. *)
Definition resolvedContext : gin.Context :=
  {| gin.Request_Header := iphoneRequest;
     gin.Keys := {[ DefaultKey := gin.AnyDevice (mobileDevice Ios) ]} |}.

(** The Unicode path is never taken on the sample requests; the identity
    stands in for it there. *)
Definition noUnicode : string -> string := fun s => s.


Ltac split_ifs_in H :=
  repeat match type of H with
         | (if ?b then _ else _) = _ => destruct b
         end.

(** ** Basic facts about the string operations *)

Lemma nonEmpty_true (s : string) : nonEmpty s = true <-> s <> "".
Proof.
  unfold nonEmpty. destruct s as [|c s]; simpl.
  - split; [discriminate | intros H; now elim H].
  - split; [discriminate | reflexivity].
Qed.

Lemma nonEmpty_false (s : string) : nonEmpty s = false <-> s = "".
Proof.
  unfold nonEmpty. destruct s as [|c s]; simpl.
  - split; reflexivity.
  - split; discriminate.
Qed.

Lemma length_lowerASCII (s : string) :
  String.length (strings.lowerASCII s) = String.length s.
Proof.
  induction s as [|c s IH]; simpl; [reflexivity | now rewrite IH].
Qed.

Lemma length_ToLower_ASCII (f : string -> string) (s : string) :
  strings.isASCII s = true ->
  String.length (strings.ToLower f s) = String.length s.
Proof.
  intros Hs. unfold strings.ToLower. rewrite Hs. apply length_lowerASCII.
Qed.

Lemma ToLower_empty (f : string -> string) : strings.ToLower f "" = "".
Proof. reflexivity. Qed.

(** A string that contains a non-empty string is itself non-empty. *)
Lemma Contains_nonEmpty (s k : string) :
  strings.Contains s k = true -> k <> "" -> s <> "".
Proof.
  intros Hc Hk ->. destruct k as [|c k]; [now elim Hk | discriminate Hc].
Qed.

(** ** Length bounds for substring search *)

Lemma HasPrefix_length (s k : string) :
  strings.HasPrefix s k = true -> String.length k <= String.length s.
Proof.
  unfold strings.HasPrefix. revert s.
  induction k as [|a k IH]; intros s H; simpl; [lia|].
  destruct s as [|b s]; simpl in H; [discriminate|].
  destruct (Ascii.ascii_dec a b); [|discriminate].
  apply IH in H. simpl. lia.
Qed.

Lemma Contains_length (s k : string) :
  strings.Contains s k = true -> String.length k <= String.length s.
Proof.
  induction s as [|b s IH]; cbn [strings.Contains]; intros H.
  - destruct (strings.HasPrefix "" k) eqn:Hp; [|discriminate].
    now apply HasPrefix_length in Hp.
  - destruct (strings.HasPrefix (String b s) k) eqn:Hp.
    + now apply HasPrefix_length in Hp.
    + apply IH in H. cbn [String.length]. lia.
Qed.

Lemma Contains_short (s k : string) :
  String.length s < String.length k -> strings.Contains s k = false.
Proof.
  intros Hlt. destruct (strings.Contains s k) eqn:Hc; [|reflexivity].
  apply Contains_length in Hc. lia.
Qed.

Lemma containsAny_short (n : nat) (s : string) (table : list string) :
  forallb (fun k => n <=? String.length k)%nat table = true ->
  String.length s < n -> containsAny s table = false.
Proof.
  intros Hall Hlt. induction table as [|k table IH]; [reflexivity|].
  simpl in Hall. apply andb_true_iff in Hall as [Hk Hall].
  apply Nat.leb_le in Hk. simpl.
  rewrite Contains_short by lia. now apply IH.
Qed.

(** No keyword of the tablet check is shorter than four bytes, so the check
    falls through on an agent shorter than that. *)
Lemma checkTablet_short (agent : string) :
  String.length agent < 4 -> checkTablet agent = None.
Proof.
  intros Hlt. unfold checkTablet.
  rewrite (Contains_short agent Android) by (simpl; lia).
  rewrite (Contains_short agent Ipad) by (simpl; lia).
  rewrite (Contains_short agent Silk) by (simpl; lia).
  rewrite (containsAny_short 4 agent TabletUserAgentKeywords) by easy.
  now destruct (nonEmpty agent).
Qed.

(** ** Lower-casing leaves no capital letter *)

Lemma lowerByte_not_upper (c : ascii) : strings.isUpper (strings.lowerByte c) = false.
Proof.
  destruct c as [[] [] [] [] [] [] [] []]; reflexivity.
Qed.

(** [Silk] starts with a capital letter, so a lower-cased ASCII string never
    contains it: on an ASCII user agent the Kindle branch of the tablet
    check cannot be taken. *)
Lemma Contains_lowerASCII_Silk (s : string) :
  strings.Contains (strings.lowerASCII s) Silk = false.
Proof.
  induction s as [|c s IH]; [reflexivity|].
  cbn [strings.lowerASCII strings.Contains].
  rewrite IH.
  assert (strings.HasPrefix (String (strings.lowerByte c) (strings.lowerASCII s)) Silk
          = false) as ->; [|reflexivity].
  unfold strings.HasPrefix, Silk. cbn [String.prefix].
  destruct (Ascii.ascii_dec "S" (strings.lowerByte c)) as [E|_]; [|reflexivity].
  pose proof (lowerByte_not_upper c) as Hu. rewrite <- E in Hu. vm_compute in Hu. discriminate Hu.
Qed.

(** ** The slice of the prefix check stays in bounds *)

Lemma sliceTo_in_bounds (s : string) (n : nat) :
  n <= String.length s -> sliceTo s n = Ok (substring 0 n s).
Proof.
  intros Hn. unfold sliceTo.
  destruct (Nat.leb_spec n (String.length s)) as [_|Hlt]; [reflexivity | lia].
Qed.

Lemma checkPrefix_total (agent : string) :
  exists o, checkPrefix agent = Ok o.
Proof.
  unfold checkPrefix.
  destruct (Nat.leb_spec 4 (String.length agent)) as [Hle|Hlt].
  - rewrite (sliceTo_in_bounds agent 4 Hle).
    destruct (nonEmpty agent); cbn [andb]; [|now exists None].
    destruct (containsAny _ _); eauto.
  - rewrite andb_false_r. now exists None.
Qed.

Lemma checkPrefix_short (agent : string) :
  String.length agent < 4 -> checkPrefix agent = Ok None.
Proof.
  intros Hlt. unfold checkPrefix.
  destruct (Nat.leb_spec 4 (String.length agent)) as [Hle|_]; [lia|].
  now rewrite andb_false_r.
Qed.

(** ** When a check falls through *)

Lemma checkTablet_None (agent : string) :
  checkTablet agent = None <->
  agent = ""
  \/ (strings.Contains agent Android && negb (strings.Contains agent Mobile) = false
      /\ strings.Contains agent Ipad = false
      /\ strings.Contains agent Silk && negb (strings.Contains agent Mobile) = false
      /\ containsAny agent TabletUserAgentKeywords = false).
Proof.
  unfold checkTablet. destruct (nonEmpty agent) eqn:Hne.
  - apply nonEmpty_true in Hne.
    destruct (_ && _); [|destruct (strings.Contains agent Ipad);
      [|destruct (_ && _); [|destruct (containsAny _ _)]]];
      (split; [try discriminate; tauto |]);
      intros [H | (H1 & H2 & H3 & H4)]; congruence.
  - apply nonEmpty_false in Hne. tauto.
Qed.


(** ** Shape of the devices each check returns *)

Lemma checkTablet_Some (agent : string) (d : device) :
  checkTablet agent = Some d -> exists p, d = tabletDevice p.
Proof.
  unfold checkTablet. intros H.
  split_ifs_in H; inversion H; eauto.
Qed.

Lemma checkProfile_Some (header : http.Header) (agent : string) (d : device) :
  checkProfile header agent = Some d -> exists p, d = mobileDevice p.
Proof.
  unfold checkProfile. cbv zeta. intros H.
  split_ifs_in H; inversion H; eauto.
Qed.

Lemma checkPrefix_Some (agent : string) (d : device) :
  checkPrefix agent = Ok (Some d) -> d = mobileDevice Unknown.
Proof.
  unfold checkPrefix. intros H.
  destruct (nonEmpty agent && (4 <=? String.length agent)%nat); [|discriminate].
  destruct (sliceTo agent 4); [|discriminate].
  destruct (containsAny _ _); now inversion H.
Qed.

Lemma checkAccept_Some (header : http.Header) (d : device) :
  checkAccept header = Some d -> d = mobileDevice Unknown.
Proof.
  unfold checkAccept. cbv zeta.
  destruct (_ && _); intros H; now inversion H.
Qed.

Lemma checkMobile_Some (agent : string) (d : device) :
  checkMobile agent = Some d -> exists p, d = mobileDevice p.
Proof.
  unfold checkMobile. intros H.
  split_ifs_in H; inversion H; eauto.
Qed.

(** ** Properties of [resolveDevice] *)

Section Properties.

Variable lower : string -> string.

(** [resolveDevice] returns a device on every header map. *)
Lemma resolveDevice_returns (header : http.Header) :
  exists d, resolveDevice lower header = Ok d.
Proof.
  unfold resolveDevice.
  destruct (checkTablet _); [eauto|].
  destruct (checkProfile _ _); [eauto|].
  destruct (checkPrefix_total (userAgent lower header)) as [o ->].
  destruct o; eauto.
Qed.

(** Every device [afterPrefix] produces sets exactly one flag. *)
Lemma afterPrefix_shape (header : http.Header) (agent : string) :
  (exists p, afterPrefix header agent = mobileDevice p)
  \/ afterPrefix header agent = normalDevice Unknown.
Proof.
  unfold afterPrefix.
  destruct (checkAccept header) as [d|] eqn:Ha.
  - left. apply checkAccept_Some in Ha. eauto.
  - destruct (checkMobile agent) as [d|] eqn:Hm.
    + left. apply checkMobile_Some in Hm. exact Hm.
    + now right.
Qed.

(** The device returned is one of the three literals of the source. *)
Lemma resolveDevice_shape (header : http.Header) :
  exists p, resolveDevice lower header = Ok (tabletDevice p)
            \/ resolveDevice lower header = Ok (mobileDevice p)
            \/ resolveDevice lower header = Ok (normalDevice p).
Proof.
  unfold resolveDevice.
  destruct (checkTablet _) as [d|] eqn:Ht.
  { apply checkTablet_Some in Ht as [p ->]. eauto. }
  destruct (checkProfile _ _) as [d|] eqn:Hp.
  { apply checkProfile_Some in Hp as [p ->]. eauto. }
  destruct (checkPrefix_total (userAgent lower header)) as [o Ho]. rewrite Ho.
  destruct o as [d|].
  { apply checkPrefix_Some in Ho as ->. eauto. }
  destruct (afterPrefix_shape header (userAgent lower header)) as [[p ->] | ->]; eauto.
Qed.

(** C1: on every header map [resolveDevice] returns a device in which
    exactly one of [normal], [mobile], [tablet] is true and the other two
    are false. *)
Theorem resolveDevice_exactly_one_flag (header : http.Header) :
  exists d, resolveDevice lower header = Ok d /\
    ((normal d = true /\ mobile d = false /\ tablet d = false)
     \/ (normal d = false /\ mobile d = true /\ tablet d = false)
     \/ (normal d = false /\ mobile d = false /\ tablet d = true)).
Proof.
  destruct (resolveDevice_shape header) as [p [H | [H | H]]];
    rewrite H; eexists; (split; [reflexivity|]); cbn; tauto.
Qed.

(** C2: the request whose only header is the User-Agent
    "AmazonWebAppPlatform Silk/3.0" has a non-empty lower-cased agent that
    contains "silk" and not "mobile", and yet [resolveDevice] returns the
    normal device with platform Unknown, not a Kindle tablet: the agent is
    lower-cased and the constant [Silk] is capitalised. *)
Theorem resolveDevice_silk_request_normal :
  userAgent lower silkRequest <> ""
  /\ strings.Contains (userAgent lower silkRequest) "silk" = true
  /\ strings.Contains (userAgent lower silkRequest) Mobile = false
  /\ strings.Contains (userAgent lower silkRequest) Silk = false
  /\ resolveDevice lower silkRequest = Ok (normalDevice Unknown).
Proof.
  vm_compute. repeat split; discriminate.
Qed.

(** C3: when the lower-cased User-Agent is non-empty, contains "android" and
    does not contain "mobile", [resolveDevice] returns a device whose
    [tablet] flag is true, whose [mobile] and [normal] flags are false and
    whose platform is Android. *)
Theorem resolveDevice_android_tablet (header : http.Header) :
  userAgent lower header <> "" ->
  strings.Contains (userAgent lower header) Android = true ->
  strings.Contains (userAgent lower header) Mobile = false ->
  exists d, resolveDevice lower header = Ok d
    /\ tablet d = true /\ mobile d = false /\ normal d = false
    /\ platform d = Android.
Proof.
  intros Hne Ha Hm. apply nonEmpty_true in Hne.
  unfold resolveDevice, checkTablet. cbv zeta. rewrite Hne, Ha, Hm.
  eexists. split; [reflexivity|]. cbn. tauto.
Qed.

(** C4: when the lower-cased User-Agent is non-empty and contains "ipad",
    [resolveDevice] returns a tablet, whether or not the agent also contains
    "mobile"; no mobile branch is reached.  The platform is Ipad, unless the
    Android tablet branch, which comes first, applies. *)
Theorem resolveDevice_ipad_tablet (header : http.Header) :
  userAgent lower header <> "" ->
  strings.Contains (userAgent lower header) Ipad = true ->
  exists d, resolveDevice lower header = Ok d
    /\ tablet d = true /\ mobile d = false /\ normal d = false
    /\ platform d =
         if strings.Contains (userAgent lower header) Android
            && negb (strings.Contains (userAgent lower header) Mobile)
         then Android else Ipad.
Proof.
  intros Hne Hi. apply nonEmpty_true in Hne.
  unfold resolveDevice, checkTablet. cbv zeta. rewrite Hne, Hi.
  destruct (_ && _); eexists; (split; [reflexivity|]); cbn; tauto.
Qed.

(** C5: when X-Wap-Profile or Profile is non-empty, the lower-cased
    User-Agent is non-empty and the tablet check did not return,
    [resolveDevice] returns a device whose [mobile] flag is true, whose
    [tablet] and [normal] flags are false, and whose platform is Android if
    the agent contains "android", else iOS if it contains "iphone", "ipod"
    or "ipad", and Unknown otherwise. *)
Theorem resolveDevice_profile_mobile (header : http.Header) :
  http.Get header XwapProfile <> "" \/ http.Get header Profile <> "" ->
  userAgent lower header <> "" ->
  checkTablet (userAgent lower header) = None ->
  exists d, resolveDevice lower header = Ok d
    /\ mobile d = true /\ tablet d = false /\ normal d = false
    /\ platform d =
         if strings.Contains (userAgent lower header) Android then Android
         else if strings.Contains (userAgent lower header) Iphone
                 || strings.Contains (userAgent lower header) Ipod
                 || strings.Contains (userAgent lower header) Ipad
         then Ios else Unknown.
Proof.
  intros Hp Hne Ht. apply nonEmpty_true in Hne.
  assert (nonEmpty (http.Get header XwapProfile)
          || nonEmpty (http.Get header Profile) = true) as Hor.
  { apply orb_true_iff. destruct Hp as [H|H]; [left|right];
      now apply nonEmpty_true. }
  unfold resolveDevice. cbv zeta. rewrite Ht.
  unfold checkProfile. cbv zeta. rewrite Hor, Hne.
  destruct (strings.Contains _ Android);
    [|destruct (_ || _ || _)];
    eexists; (split; [reflexivity|]); cbn; tauto.
Qed.

(** C6: when the Accept header is non-empty and contains "wap", and the
    tablet check, the profile check and the prefix check all fell through,
    [resolveDevice] returns a device whose [mobile] flag is true, whose
    [tablet] and [normal] flags are false and whose platform is Unknown. *)
Theorem resolveDevice_accept_wap_mobile (header : http.Header) :
  http.Get header "Accept" <> "" ->
  strings.Contains (http.Get header "Accept") Wap = true ->
  checkTablet (userAgent lower header) = None ->
  checkProfile header (userAgent lower header) = None ->
  checkPrefix (userAgent lower header) = Ok None ->
  exists d, resolveDevice lower header = Ok d
    /\ mobile d = true /\ tablet d = false /\ normal d = false
    /\ platform d = Unknown.
Proof.
  intros Hne Hw Ht Hp Hx. apply nonEmpty_true in Hne.
  unfold resolveDevice. cbv zeta. rewrite Ht, Hp, Hx.
  unfold afterPrefix, checkAccept. cbv zeta. rewrite Hne, Hw.
  eexists. split; [reflexivity|]. cbn. tauto.
Qed.

(** C7: when User-Agent, X-Wap-Profile, Profile and Accept are all empty or
    absent, [resolveDevice] returns a device whose [normal] flag is true,
    whose [mobile] and [tablet] flags are false and whose platform is
    Unknown. *)
Theorem resolveDevice_no_headers_normal (header : http.Header) :
  http.Get header "User-Agent" = "" ->
  http.Get header XwapProfile = "" ->
  http.Get header Profile = "" ->
  http.Get header "Accept" = "" ->
  exists d, resolveDevice lower header = Ok d
    /\ normal d = true /\ mobile d = false /\ tablet d = false
    /\ platform d = Unknown.
Proof.
  intros Hua Hx Hp Ha.
  unfold resolveDevice, userAgent, checkProfile, afterPrefix, checkAccept.
  cbv zeta. rewrite Hua, Hx, Hp, Ha.
  eexists. split; [reflexivity|]. cbn. tauto.
Qed.

(** C8: [resolveDevice] returns a device on every header map, it never
    panics.  When the agent is shorter than four bytes (as it is when an
    ASCII User-Agent is) the prefix check is skipped without slicing, and
    the result is that of the checks around it: the profile check, then the
    Accept check, the mobile check and the default. *)
Theorem resolveDevice_total_short_agent (header : http.Header) :
  (exists d, resolveDevice lower header = Ok d)
  /\ (String.length (userAgent lower header) < 4
      \/ (strings.isASCII (http.Get header "User-Agent") = true
          /\ String.length (http.Get header "User-Agent") < 4) ->
      checkPrefix (userAgent lower header) = Ok None
      /\ resolveDevice lower header =
           match checkProfile header (userAgent lower header) with
           | Some d => Ok d
           | None => Ok (afterPrefix header (userAgent lower header))
           end).
Proof.
  split; [apply resolveDevice_returns|].
  intros Hshort.
  assert (String.length (userAgent lower header) < 4) as Hlt.
  { destruct Hshort as [H | [Hascii H]]; [exact H|].
    unfold userAgent. now rewrite length_ToLower_ASCII. }
  split; [now apply checkPrefix_short|].
  unfold resolveDevice. cbv zeta.
  now rewrite (checkTablet_short _ Hlt), (checkPrefix_short _ Hlt).
Qed.

(** C9: two header maps with the same User-Agent, X-Wap-Profile, Profile
    and Accept values are resolved to one and the same device, equal in all
    four fields. *)
Theorem resolveDevice_deterministic (h1 h2 : http.Header) :
  http.Get h1 "User-Agent" = http.Get h2 "User-Agent" ->
  http.Get h1 XwapProfile = http.Get h2 XwapProfile ->
  http.Get h1 Profile = http.Get h2 Profile ->
  http.Get h1 "Accept" = http.Get h2 "Accept" ->
  exists d, resolveDevice lower h1 = Ok d /\ resolveDevice lower h2 = Ok d.
Proof.
  intros Hua Hx Hp Ha.
  destruct (resolveDevice_returns h2) as [d Hd].
  exists d. split; [|exact Hd]. rewrite <- Hd.
  unfold resolveDevice, userAgent, checkProfile, afterPrefix, checkAccept.
  cbv zeta. now rewrite Hua, Hx, Hp, Ha.
Qed.

(** C10: the Accept check compares the header value as received.  When the
    Accept header contains "wap" only up to letter case, not in lower case,
    the Accept check falls through; if the tablet, profile and prefix checks
    fell through as well, the result is that of the mobile check, or the
    normal device when that check too finds nothing. *)
Theorem resolveDevice_accept_case_sensitive (header : http.Header) :
  strings.Contains (strings.lowerASCII (http.Get header "Accept")) Wap = true ->
  strings.Contains (http.Get header "Accept") Wap = false ->
  checkTablet (userAgent lower header) = None ->
  checkProfile header (userAgent lower header) = None ->
  checkPrefix (userAgent lower header) = Ok None ->
  checkAccept header = None
  /\ resolveDevice lower header =
       Ok (match checkMobile (userAgent lower header) with
           | Some d => d
           | None => normalDevice Unknown
           end).
Proof.
  intros _ Hw Ht Hp Hx.
  assert (checkAccept header = None) as Ha.
  { unfold checkAccept. cbv zeta. now rewrite Hw, andb_false_r. }
  split; [exact Ha|].
  unfold resolveDevice. cbv zeta. rewrite Ht, Hp, Hx.
  unfold afterPrefix. now rewrite Ha.
Qed.

End Properties.

(** ** The properties on the sample requests *)

(** An Android user agent without "mobile" is a tablet (C3). *)
Lemma resolveDevice_android_tablet_witness :
  exists d, resolveDevice noUnicode androidTabletRequest = Ok d
    /\ tablet d = true /\ mobile d = false /\ normal d = false
    /\ platform d = "android".
Proof.
  apply (resolveDevice_android_tablet noUnicode androidTabletRequest);
    vm_compute; (discriminate || reflexivity).
Defined.

(** An iPad user agent is a tablet with and without "mobile" in it (C4). *)
Lemma resolveDevice_ipad_tablet_witness :
  (exists d, resolveDevice noUnicode ipadRequest = Ok d
     /\ tablet d = true /\ mobile d = false /\ normal d = false
     /\ platform d = Ipad)
  /\ (exists d, resolveDevice noUnicode ipadMobileRequest = Ok d
        /\ tablet d = true /\ mobile d = false /\ normal d = false
        /\ platform d = Ipad).
Proof.
  split.
  - apply (resolveDevice_ipad_tablet noUnicode ipadRequest);
      vm_compute; (discriminate || reflexivity).
  - apply (resolveDevice_ipad_tablet noUnicode ipadMobileRequest);
      vm_compute; (discriminate || reflexivity).
Defined.

(** An iPhone that sends X-Wap-Profile is a mobile device on iOS (C5). *)
Lemma resolveDevice_profile_mobile_witness :
  exists d, resolveDevice noUnicode profileRequest = Ok d
    /\ mobile d = true /\ tablet d = false /\ normal d = false
    /\ platform d = "ios".
Proof.
  apply (resolveDevice_profile_mobile noUnicode profileRequest).
  - left. vm_compute. discriminate.
  - vm_compute. discriminate.
  - vm_compute. reflexivity.
Defined.

(** A desktop user agent that accepts WML is a mobile device (C6). *)
Lemma resolveDevice_accept_wap_mobile_witness :
  exists d, resolveDevice noUnicode wapAcceptRequest = Ok d
    /\ mobile d = true /\ tablet d = false /\ normal d = false
    /\ platform d = "Unknown".
Proof.
  apply (resolveDevice_accept_wap_mobile noUnicode wapAcceptRequest);
    vm_compute; (discriminate || reflexivity).
Defined.

(** A request without headers comes from a normal device (C7). *)
Lemma resolveDevice_no_headers_normal_witness :
  exists d, resolveDevice noUnicode noHeaders = Ok d
    /\ normal d = true /\ mobile d = false /\ tablet d = false
    /\ platform d = "Unknown".
Proof.
  apply (resolveDevice_no_headers_normal noUnicode noHeaders);
    vm_compute; reflexivity.
Defined.

(** The three-byte agent "w3c" starts two entries of the prefix table, and
    the prefix check is skipped all the same (C8). *)
Lemma resolveDevice_total_short_agent_witness :
  checkPrefix (userAgent noUnicode shortAgentRequest) = Ok None
  /\ resolveDevice noUnicode shortAgentRequest = Ok (normalDevice Unknown).
Proof.
  apply (proj2 (resolveDevice_total_short_agent noUnicode shortAgentRequest)).
  right. split; [reflexivity | vm_compute; lia].
Defined.

(** Headers the resolver does not read, and values after the first one, do
    not change the device (C9). *)
Lemma resolveDevice_deterministic_witness :
  exists d, resolveDevice noUnicode plainRequest = Ok d
            /\ resolveDevice noUnicode noisyRequest = Ok d.
Proof.
  apply (resolveDevice_deterministic noUnicode plainRequest noisyRequest);
    vm_compute; reflexivity.
Defined.

(** "WAP" in capitals in the Accept header does not make the device mobile
    (C10). *)
Lemma resolveDevice_accept_case_sensitive_witness :
  checkAccept upperWapAcceptRequest = None
  /\ resolveDevice noUnicode upperWapAcceptRequest = Ok (normalDevice Unknown).
Proof.
  apply (resolveDevice_accept_case_sensitive noUnicode upperWapAcceptRequest);
    vm_compute; reflexivity.
Defined.

(** ** More on substring search *)









(** ** What each check has seen when it returns *)

Lemma checkTablet_Some_inv (agent : string) (d : device) :
  checkTablet agent = Some d ->
  agent <> ""
  /\ ((d = tabletDevice Android
       /\ strings.Contains agent Android = true
       /\ strings.Contains agent Mobile = false)
      \/ (d = tabletDevice Ipad /\ strings.Contains agent Ipad = true)
      \/ (d = tabletDevice Kindle
          /\ strings.Contains agent Silk = true
          /\ strings.Contains agent Mobile = false)
      \/ (d = tabletDevice Unknown
          /\ strings.Contains agent Ipad = false
          /\ containsAny agent TabletUserAgentKeywords = true)).
Proof.
  unfold checkTablet. destruct (nonEmpty agent) eqn:Hne; [|discriminate].
  apply nonEmpty_true in Hne. intros H. split; [exact Hne|].
  destruct (strings.Contains agent Android) eqn:Ha;
    destruct (strings.Contains agent Mobile) eqn:Hm;
    destruct (strings.Contains agent Ipad) eqn:Hi;
    destruct (strings.Contains agent Silk) eqn:Hs;
    destruct (containsAny agent TabletUserAgentKeywords) eqn:Hk;
    cbn in H; inversion H; tauto.
Qed.

Lemma checkProfile_Some_inv (header : http.Header) (agent : string) (d : device) :
  checkProfile header agent = Some d ->
  agent <> ""
  /\ ((d = mobileDevice Android /\ strings.Contains agent Android = true)
      \/ (d = mobileDevice Ios
          /\ strings.Contains agent Iphone || strings.Contains agent Ipod
             || strings.Contains agent Ipad = true)
      \/ d = mobileDevice Unknown).
Proof.
  unfold checkProfile. cbv zeta.
  destruct (_ || _); [|discriminate].
  destruct (nonEmpty agent) eqn:Hne; [|discriminate].
  apply nonEmpty_true in Hne. intros H. split; [exact Hne|].
  destruct (strings.Contains agent Android) eqn:Ha; [inversion H; tauto|].
  destruct (_ || _ || _) eqn:Hi; inversion H; tauto.
Qed.

Lemma checkMobile_Some_inv (agent : string) (d : device) :
  checkMobile agent = Some d ->
  agent <> ""
  /\ ((d = mobileDevice Android /\ strings.Contains agent Android = true)
      \/ (d = mobileDevice Ios
          /\ strings.Contains agent Iphone || strings.Contains agent Ipod
             || strings.Contains agent Ipad = true)
      \/ d = mobileDevice Unknown).
Proof.
  unfold checkMobile.
  destruct (nonEmpty agent) eqn:Hne; [|discriminate].
  apply nonEmpty_true in Hne. intros H. split; [exact Hne|].
  destruct (strings.Contains agent Android) eqn:Ha; [inversion H; tauto|].
  destruct (_ || _ || _) eqn:Hi; [inversion H; tauto|].
  destruct (containsAny _ _); inversion H; tauto.
Qed.

(** Once the tablet check has fallen through on a non-empty agent, the
    agent holds no "ipad". *)
Lemma checkTablet_None_no_ipad (agent : string) :
  checkTablet agent = None -> agent <> "" ->
  strings.Contains agent Ipad = false.
Proof.
  intros Ht Hne. apply checkTablet_None in Ht as [-> | (_ & Hi & _)];
    [now elim Hne | exact Hi].
Qed.

(** ** Properties beyond the classification rules *)

Section Resolution.

Variable lower : string -> string.

(** The check that decided the result. *)
Lemma resolveDevice_Ok_inv (header : http.Header) (d : device) :
  resolveDevice lower header = Ok d ->
  checkTablet (userAgent lower header) = Some d
  \/ (checkTablet (userAgent lower header) = None
      /\ (checkProfile header (userAgent lower header) = Some d
          \/ checkPrefix (userAgent lower header) = Ok (Some d)
          \/ checkAccept header = Some d
          \/ checkMobile (userAgent lower header) = Some d
          \/ (d = normalDevice Unknown
              /\ checkProfile header (userAgent lower header) = None
              /\ checkPrefix (userAgent lower header) = Ok None
              /\ checkAccept header = None
              /\ checkMobile (userAgent lower header) = None))).
Proof.
  unfold resolveDevice. cbv zeta.
  destruct (checkTablet _) as [dt|]; [intros [= ->]; now left|].
  intros H. right. split; [reflexivity|].
  destruct (checkProfile _ _) as [dp|]; [injection H as ->; tauto|].
  destruct (checkPrefix _) as [[dx|]|]; [injection H as ->; tauto| |discriminate].
  unfold afterPrefix in H.
  destruct (checkAccept _) as [da|]; [injection H as ->; tauto|].
  destruct (checkMobile _) as [dm|]; injection H as <-; tauto.
Qed.

(** Results depend on the header map through the agent, the profile check
    and the Accept check only. *)
Lemma resolveDevice_congr (h1 h2 : http.Header) :
  userAgent lower h1 = userAgent lower h2 ->
  checkProfile h1 (userAgent lower h2) = checkProfile h2 (userAgent lower h2) ->
  checkAccept h1 = checkAccept h2 ->
  resolveDevice lower h1 = resolveDevice lower h2.
Proof.
  intros Hua Hp Ha. unfold resolveDevice, afterPrefix. cbv zeta.
  now rewrite Hua, Hp, Ha.
Qed.


(** X2: on an ASCII User-Agent the platform returned is android, ipad, ios
    or Unknown, never Kindle. *)
Theorem resolveDevice_ASCII_never_Kindle (header : http.Header) :
  strings.isASCII (http.Get header "User-Agent") = true ->
  exists d, resolveDevice lower header = Ok d
    /\ In (platform d) [ Android; Ipad; Ios; Unknown ].
Proof.
  intros Hascii.
  destruct (resolveDevice_returns lower header) as [d Hd].
  exists d. split; [exact Hd|].
  apply resolveDevice_Ok_inv in Hd as [Ht | [_ [Hp | [Hx | [Ha | [Hm | (-> & _)]]]]]].
  - apply checkTablet_Some_inv in Ht
      as (_ & [(-> & _) | [(-> & _) | [(_ & Hs & _) | (-> & _)]]]);
      try (cbn; auto 10).
    unfold userAgent, strings.ToLower in Hs. rewrite Hascii in Hs.
    now rewrite Contains_lowerASCII_Silk in Hs.
  - apply checkProfile_Some_inv in Hp
      as (_ & [(-> & _) | [(-> & _) | ->]]); cbn; auto 10.
  - apply checkPrefix_Some in Hx as ->. cbn; auto 10.
  - apply checkAccept_Some in Ha as ->. cbn; auto 10.
  - apply checkMobile_Some_inv in Hm
      as (_ & [(-> & _) | [(-> & _) | ->]]); cbn; auto 10.
  - cbn; auto 10.
Qed.








(** X6: the platform tells what the agent holds.  Platform android is
    returned only for an agent with "android" in it, ios only for a mobile
    device whose agent holds "iphone" or "ipod", ipad only for a tablet
    whose agent holds "ipad", Kindle only for a tablet whose agent holds the
    capitalised "Silk". *)
Theorem resolveDevice_platform_sound (header : http.Header) (d : device) :
  resolveDevice lower header = Ok d ->
  (platform d = Android ->
   strings.Contains (userAgent lower header) Android = true)
  /\ (platform d = Ios ->
      mobile d = true
      /\ strings.Contains (userAgent lower header) Iphone
         || strings.Contains (userAgent lower header) Ipod = true)
  /\ (platform d = Ipad ->
      tablet d = true
      /\ strings.Contains (userAgent lower header) Ipad = true)
  /\ (platform d = Kindle ->
      tablet d = true
      /\ strings.Contains (userAgent lower header) Silk = true).
Proof.
  intros Hd.
  apply resolveDevice_Ok_inv in Hd
    as [Ht | [Hnt [Hp | [Hx | [Ha | [Hm | (-> & _)]]]]]].
  - apply checkTablet_Some_inv in Ht
      as (_ & [(-> & Ha & _) | [(-> & Hi) | [(-> & Hs & _) | (-> & _)]]]);
      repeat split; cbn; (discriminate || auto).
  - apply checkProfile_Some_inv in Hp
      as (Hne & [(-> & Ha) | [(-> & Hi) | ->]]);
      repeat split; cbn; try (discriminate || auto).
    rewrite (checkTablet_None_no_ipad _ Hnt Hne), orb_false_r in Hi. auto.
  - apply checkPrefix_Some in Hx as ->.
    repeat split; cbn; discriminate.
  - apply checkAccept_Some in Ha as ->.
    repeat split; cbn; discriminate.
  - apply checkMobile_Some_inv in Hm
      as (Hne & [(-> & Ha) | [(-> & Hi) | ->]]);
      repeat split; cbn; try (discriminate || auto).
    rewrite (checkTablet_None_no_ipad _ Hnt Hne), orb_false_r in Hi. auto.
  - repeat split; cbn; discriminate.
Qed.


(** X8: the letter case of an ASCII User-Agent does not matter: two requests
    whose User-Agents are equal up to the case of their letters, and whose
    other headers are the same, are resolved alike. *)
Theorem resolveDevice_agent_case_insensitive (h1 h2 : http.Header) :
  strings.isASCII (http.Get h1 "User-Agent") = true ->
  strings.isASCII (http.Get h2 "User-Agent") = true ->
  strings.lowerASCII (http.Get h1 "User-Agent")
  = strings.lowerASCII (http.Get h2 "User-Agent") ->
  http.Get h1 XwapProfile = http.Get h2 XwapProfile ->
  http.Get h1 Profile = http.Get h2 Profile ->
  http.Get h1 "Accept" = http.Get h2 "Accept" ->
  resolveDevice lower h1 = resolveDevice lower h2.
Proof.
  intros H1 H2 Hl Hx Hp Ha. apply resolveDevice_congr.
  - unfold userAgent, strings.ToLower. now rewrite H1, H2.
  - unfold checkProfile. now rewrite Hx, Hp.
  - unfold checkAccept. now rewrite Ha.
Qed.

(** X9: the profile headers count by their presence only: two requests with
    the same User-Agent and Accept values, each with or each without a
    non-empty X-Wap-Profile or Profile header, are resolved alike. *)
Theorem resolveDevice_profile_presence (h1 h2 : http.Header) :
  http.Get h1 "User-Agent" = http.Get h2 "User-Agent" ->
  http.Get h1 "Accept" = http.Get h2 "Accept" ->
  (http.Get h1 XwapProfile <> "" \/ http.Get h1 Profile <> "" <->
   http.Get h2 XwapProfile <> "" \/ http.Get h2 Profile <> "") ->
  resolveDevice lower h1 = resolveDevice lower h2.
Proof.
  intros Hua Ha Hp. apply resolveDevice_congr.
  - unfold userAgent. now rewrite Hua.
  - unfold checkProfile. cbv zeta.
    assert (nonEmpty (http.Get h1 XwapProfile) || nonEmpty (http.Get h1 Profile)
            = nonEmpty (http.Get h2 XwapProfile) || nonEmpty (http.Get h2 Profile))
      as ->; [|reflexivity].
    apply eq_true_iff_eq. now rewrite !orb_true_iff, !nonEmpty_true.
  - unfold checkAccept. now rewrite Ha.
Qed.







End Resolution.

(** ** The middleware and the accessor *)

Lemma GetDevice_Set_DefaultKey (c : gin.Context) (d : device) :
  GetDevice (gin.Set_ c DefaultKey (gin.AnyDevice d)) = Ok d.
Proof.
  unfold GetDevice, gin.MustGet, gin.Get, gin.Set_. cbn [gin.Keys].
  now rewrite lookup_insert_eq.
Qed.

Lemma Get_Set_other (c : gin.Context) (key key' : string) (v : gin.any) :
  key' <> key -> gin.Get (gin.Set_ c key v) key' = gin.Get c key'.
Proof.
  intros Hne. unfold gin.Get, gin.Set_. cbn [gin.Keys].
  now apply lookup_insert_ne.
Qed.

(** X12: storing a value under another key does not change what
    [GetDevice] returns. *)
Theorem GetDevice_Set_other_key (c : gin.Context) (key : string) (v : gin.any) :
  key <> DefaultKey ->
  GetDevice (gin.Set_ c key v) = GetDevice c.
Proof.
  intros Hne. unfold GetDevice, gin.MustGet.
  rewrite Get_Set_other; [reflexivity | congruence].
Qed.

Section MiddlewareProperties.

Variable lower : string -> string.

(** X10: the handlers behind [Resolver] run on a context in which
    [GetDevice] returns the device resolved from the header of the request,
    whatever [DefaultKey] held before; the header and the other keys of the
    context are unchanged. *)
Theorem Resolver_GetDevice (next : gin.HandlerFunc) (c : gin.Context) :
  exists d c',
    resolveDevice lower (gin.Request_Header c) = Ok d
    /\ Resolver lower next c = next c'
    /\ GetDevice c' = Ok d
    /\ gin.Request_Header c' = gin.Request_Header c
    /\ forall key, key <> DefaultKey -> gin.Get c' key = gin.Get c key.
Proof.
  destruct (resolveDevice_returns lower (gin.Request_Header c)) as [d Hd].
  exists d, (gin.Set_ c DefaultKey (gin.AnyDevice d)).
  split; [exact Hd|]. split; [unfold Resolver; now rewrite Hd|].
  split; [apply GetDevice_Set_DefaultKey|]. split; [reflexivity|].
  intros key Hne. now apply Get_Set_other.
Qed.

(** X13: through the accessors, a handler behind [Resolver] sees exactly one
    of [Normal], [Mobile] and [Tablet]; the platform of a normal device is
    Unknown, that of a mobile device android, ios or Unknown, that of a
    tablet android, ipad, Kindle or Unknown. *)
Theorem Resolver_accessors (next : gin.HandlerFunc) (c : gin.Context) :
  exists d c',
    Resolver lower next c = next c'
    /\ GetDevice c' = Ok d
    /\ ((Device.Normal d = true /\ Device.Mobile d = false
         /\ Device.Tablet d = false /\ Device.Platform d = Unknown)
        \/ (Device.Normal d = false /\ Device.Mobile d = true
            /\ Device.Tablet d = false
            /\ In (Device.Platform d) [ Android; Ios; Unknown ])
        \/ (Device.Normal d = false /\ Device.Mobile d = false
            /\ Device.Tablet d = true
            /\ In (Device.Platform d) [ Android; Ipad; Kindle; Unknown ])).
Proof.
  destruct (resolveDevice_returns lower (gin.Request_Header c)) as [d Hd].
  exists d, (gin.Set_ c DefaultKey (gin.AnyDevice d)).
  split; [unfold Resolver; now rewrite Hd|].
  split; [apply GetDevice_Set_DefaultKey|].
  apply resolveDevice_Ok_inv in Hd
    as [Ht | [_ [Hp | [Hx | [Ha | [Hm | (-> & _)]]]]]].
  - right; right.
    apply checkTablet_Some_inv in Ht
      as (_ & [(-> & _) | [(-> & _) | [(-> & _) | (-> & _)]]]); cbn; auto 10.
  - right; left.
    apply checkProfile_Some_inv in Hp
      as (_ & [(-> & _) | [(-> & _) | ->]]); cbn; auto 10.
  - right; left. apply checkPrefix_Some in Hx as ->. cbn; auto 10.
  - right; left. apply checkAccept_Some in Ha as ->. cbn; auto 10.
  - right; left.
    apply checkMobile_Some_inv in Hm
      as (_ & [(-> & _) | [(-> & _) | ->]]); cbn; auto 10.
  - left. cbn; auto.
Qed.

(** X14: installing [Resolver] twice in a chain is the same as installing
    it once. *)
Theorem Resolver_idempotent (next : gin.HandlerFunc) (c : gin.Context) :
  Resolver lower (Resolver lower next) c = Resolver lower next c.
Proof.
  unfold Resolver.
  destruct (resolveDevice lower (gin.Request_Header c)) as [d|] eqn:Hd;
    [|reflexivity].
  cbn [gin.Set_ gin.Request_Header]. rewrite Hd.
  unfold gin.Set_. cbn [gin.Request_Header gin.Keys].
  now rewrite insert_insert_eq.
Qed.

End MiddlewareProperties.

(** ** The further properties on the sample requests *)

(** The Silk request is ASCII; its platform is Unknown (X2). *)
Lemma resolveDevice_ASCII_never_Kindle_witness :
  exists d, resolveDevice noUnicode silkRequest = Ok d
    /\ In (platform d) [ Android; Ipad; Ios; Unknown ].
Proof.
  apply (resolveDevice_ASCII_never_Kindle noUnicode silkRequest).
  vm_compute. reflexivity.
Defined.



(** The platform ios of the iPhone request comes with "iphone" in the agent
    (X6). *)
Lemma resolveDevice_platform_sound_witness :
  mobile (mobileDevice Ios) = true
  /\ strings.Contains (userAgent noUnicode iphoneRequest) Iphone
     || strings.Contains (userAgent noUnicode iphoneRequest) Ipod = true.
Proof.
  assert (resolveDevice noUnicode iphoneRequest = Ok (mobileDevice Ios)) as Hd
    by (vm_compute; reflexivity).
  destruct (resolveDevice_platform_sound noUnicode iphoneRequest _ Hd)
    as (_ & Hios & _).
  apply Hios. reflexivity.
Defined.


(** An iPhone that writes its User-Agent in capitals is resolved like any
    other (X8). *)
Lemma resolveDevice_agent_case_insensitive_witness :
  resolveDevice noUnicode upperIphoneRequest
  = resolveDevice noUnicode iphoneRequest.
Proof.
  apply (resolveDevice_agent_case_insensitive noUnicode
           upperIphoneRequest iphoneRequest);
    vm_compute; reflexivity.
Defined.

(** X-Wap-Profile and Profile serve alike (X9). *)
Lemma resolveDevice_profile_presence_witness :
  resolveDevice noUnicode profileRequest
  = resolveDevice noUnicode profileRequest'.
Proof.
  apply (resolveDevice_profile_presence noUnicode profileRequest profileRequest');
    [vm_compute; reflexivity | vm_compute; reflexivity |].
  split; intros _; [right | left]; vm_compute; discriminate.
Defined.

(** A handler that stores a user name leaves the device in place (X12). *)
Lemma GetDevice_Set_other_key_witness :
  GetDevice (gin.Set_ resolvedContext "user" (gin.AnyString "alice"))
  = GetDevice resolvedContext.
Proof.
  apply (GetDevice_Set_other_key resolvedContext "user" (gin.AnyString "alice")).
  vm_compute. discriminate.
Defined.
